(** * cfgt: format detection and diagnostic location of the [convert] command

    A shallow embedding of the [convert] command of cfgt: the [run] method
    of [ParseMode], the three [Parse*] wrappers and [highlightPosition].
    The decoders of encoding/json, flynn/json5 and hashicorp/hcl, the
    [%q] verb of fmt and the JSON encoder are libraries of the program;
    they are taken as the fields of the class [Externals]. *)

From Stdlib Require Import ZArith List String Ascii Bool Lia DecimalString.
Import ListNotations.

Open Scope string_scope.
Open Scope Z_scope.

(** ** Strings of bytes *)

Definition LF : ascii := "010"%char.
Definition nl : string := String LF "".

(** ** The pieces of package fmt and strings that the program uses *)

Module fmt.

(** [strings.Repeat s n]; the program only calls it with a count that is
    not negative. *)
Fixpoint Repeat_nat (s : string) (n : nat) : string :=
  match n with
  | O => ""
  | S n' => s ++ Repeat_nat s n'
  end.

Definition Repeat (s : string) (count : Z) : string :=
  Repeat_nat s (Z.to_nat count).

(** The verb [%d]. *)
Definition d (n : Z) : string := NilZero.string_of_int (Z.to_int n).

(** The verb [%5d]: [%d] padded with spaces on the left up to width 5. *)
Definition d5 (n : Z) : string :=
  let s := d n in
  Repeat_nat " " (5 - String.length s) ++ s.

End fmt.

(** ** Error values *)

(** The error values that reach [run]: the syntax errors of the two JSON
    decoders, which carry the byte offset of the failure, any other error of
    a library or of the operating system, the errors made by [fmt.Errorf],
    and the errors of github.com/pkg/errors, which wrap a cause in a
    message. *)
Inductive error : Type :=
| JsonSyntaxError (msg : string) (Offset : Z)
| Json5SyntaxError (msg : string) (Offset : Z)
| ForeignError (msg : string)
| Errorf (msg : string)
| Wrap (cause : error) (msg : string).

(** The method [Error()]. *)
Fixpoint Error (e : error) : string :=
  match e with
  | JsonSyntaxError msg _ => msg
  | Json5SyntaxError msg _ => msg
  | ForeignError msg => msg
  | Errorf msg => msg
  | Wrap cause msg => msg ++ ": " ++ Error cause
  end.

(** [errors.Cause]: the innermost error of a chain of wrappers. *)
Fixpoint Cause (e : error) : error :=
  match e with
  | Wrap cause _ => Cause cause
  | _ => e
  end.

(** The verb [%v] on a slice of errors: the messages between brackets,
    separated by one space. *)
Definition v_errors (errs : list error) : string :=
  "[" ++ String.concat " " (map Error errs) ++ "]".

(** A Go pair [(value, error)] of which one side is nil. *)
Inductive result (A : Type) : Type :=
| Ok (a : A)
| Err (e : error).
Arguments Ok {A} a.
Arguments Err {A} e.

(** ** highlightPosition *)

(** The variables of the loop of [highlightPosition]. The counters are Go
    [int]s; they are bounded by the length of the file (lemma
    [scan_bounds] below), so they never wrap and are integers here. *)
Record scanner : Type := mkScanner {
  line : Z;
  col : Z;
  lastLine : string;
  thisLine : string
}.

(** The state before the loop: [line = 1], and [col], a named result, has
    the zero value. *)
Definition scanner0 : scanner :=
  {| line := 1; col := 0; lastLine := ""; thisLine := "" |}.

(** One iteration of the loop on the byte [b] that [ReadByte] returned. *)
Definition scan_byte (b : ascii) (s : scanner) : scanner :=
  if Ascii.eqb b LF then
    {| line := line s + 1; col := 1;
       lastLine := thisLine s; thisLine := "" |}
  else
    {| line := line s; col := col s + 1;
       lastLine := lastLine s; thisLine := thisLine s ++ String b "" |}.

(** The loop [for n := int64(0); n < pos; n++]; [br] is what the reader
    still holds, and [ReadByte] fails, which leaves the loop, when it is
    empty. *)
Fixpoint scan (br : string) (n pos : Z) (s : scanner) : scanner :=
  if n <? pos then
    match br with
    | EmptyString => s
    | String b br' => scan br' (n + 1) pos (scan_byte b s)
    end
  else s.

(** The three [Sprintf]s that build the highlight. *)
Definition render (s : scanner) : string :=
  let highlight := "" in
  let highlight :=
    if 1 <? line s
    then highlight ++ (fmt.d5 (line s - 1) ++ ": " ++ lastLine s ++ nl)
    else highlight in
  let highlight := highlight ++ (fmt.d5 (line s) ++ ": " ++ thisLine s ++ nl) in
  let highlight := highlight ++ (fmt.Repeat " " (col s + 5) ++ "^" ++ nl) in
  highlight.

(** [f] is the content of the file, which the caller has rewound. *)
Definition highlightPosition (f : string) (pos : Z) : Z * Z * string :=
  let s := scan f 0 pos scanner0 in
  (line s, col s, render s).

(** *** What the loop computes

    The loop is compared with a description of its result that does not
    follow its control flow: the bytes it consumes, cut into lines. *)

(** The bytes that the loop reads: the first [pos] bytes of the file, or all
    of it when it is shorter (and none when [pos] is negative). *)
Definition consumed (f : string) (pos : Z) : string :=
  substring 0 (Z.to_nat pos) f.

(** The text between the line feeds, as [strings.Split(p, "\n")] gives it. *)
Fixpoint lines (p : string) : list string :=
  match p with
  | EmptyString => [""]
  | String b p' =>
      if Ascii.eqb b LF then "" :: lines p'
      else match lines p' with
           | l :: ls => String b l :: ls
           | [] => [String b ""]
           end
  end.

(** The number of line feeds. *)
Fixpoint count_LF (p : string) : nat :=
  match p with
  | EmptyString => O
  | String b p' => ((if Ascii.eqb b LF then 1 else 0) + count_LF p')%nat
  end.

(** The last line, and the one before it (empty when there is none). *)
Definition last_line (p : string) : string := last (lines p) "".

Definition previous_line (p : string) : string :=
  nth (List.length (lines p) - 2) (removelast (lines p)) "".

(** The loop without its counter, on the bytes it consumes. *)
Fixpoint feed (p : string) (s : scanner) : scanner :=
  match p with
  | EmptyString => s
  | String b p' => feed p' (scan_byte b s)
  end.

(** ** Configuration and environment *)

Record GlobalConfig : Type := mkGlobalConfig {
  Debug : bool;
  InFilename : string;
  OutFilename : string;
  OutFormat : string
}.

(** [ParseMode] embeds [*GlobalConfig]; the coercion stands for the
    promotion of its fields. *)
Record ParseMode : Type := mkParseMode {
  Globals :> GlobalConfig;
  BufferSize : Z;
  PrettyPrint : bool;
  InputFormat : string;
  OutputFormat : string
}.

Definition DefaultBufferSize : Z := 16384.

Definition NewParseMode (globals : GlobalConfig) : ParseMode :=
  {| Globals := globals; BufferSize := DefaultBufferSize;
     PrettyPrint := false; InputFormat := ""; OutputFormat := "" |}.

(** What the operating system answers to [run]: the bytes on standard
    input, and for each call that can fail its error, if any. [Open] gives
    the content of the named file. *)
Record World : Type := mkWorld {
  Stdin : string;
  TempFile : option error;
  Flush : option error;
  Open : string -> result string;
  Copy : option error;
  Create : string -> option error
}.

(** [json.Encoder]: only its indentation is set by the program. *)
Record Encoder : Type := mkEncoder {
  indentPrefix : string;
  indentValue : string
}.

Definition NewEncoder : Encoder := {| indentPrefix := ""; indentValue := "" |}.

Definition SetIndent (prefix indent : string) (enc : Encoder) : Encoder :=
  {| indentPrefix := prefix; indentValue := indent |}.

(** [Encode] indents its output when one of the two strings is set. *)
Definition indented (enc : Encoder) : bool :=
  negb (indentPrefix enc =? "")%string || negb (indentValue enc =? "")%string.

(** The candidate grammars. *)
Inductive Grammar : Type := JSON | JSON5 | HCL.

(** The libraries of the program. [Value] is what the decoders store in an
    [interface{}]. *)
Class Externals : Type := {
  Value : Type;
  json_Decode : string -> result Value;
  json5_Decode : string -> result Value;
  hcl_Decode : string -> result Value;
  quote : string -> string;
  Encode : Encoder -> Value -> option error
}.

Section Convert.

Context {ext : Externals}.

(** ** Observable calls *)

(** The calls of [run] that the properties below speak of: a call of one of
    the three parsers, the creation of the output file, and the encoding
    of a value on the writer of a destination. *)
Inductive event : Type :=
| Parsing (g : Grammar)
| Creating (name : string)
| Encoding (enc : Encoder) (dest : string) (raw : Value).

(** A computation that appends to the log of calls. *)
Definition M (A : Type) : Type := list event -> A * list event.

Definition ret {A : Type} (a : A) : M A := fun log => (a, log).

Definition bind {A B : Type} (c : M A) (k : A -> M B) : M B :=
  fun log => let '(a, log') := c log in k a log'.

Definition emit (e : event) : M unit := fun log => (tt, (log ++ [e])%list).

Notation "x <- c ;; k" := (bind c (fun x => k))
  (at level 61, c at next level, right associativity).
Notation "c ;;; k" := (bind c (fun _ => k))
  (at level 61, right associativity).

(** ** The parsers *)

Definition ParseHCL (input : string) : M (result Value) :=
  emit (Parsing HCL) ;;;
  match hcl_Decode input with
  | Err err => ret (Err (Wrap err "unable to decode HCL"))
  | Ok raw => ret (Ok raw)
  end.

Definition ParseJSON (r : string) : M (result Value) :=
  emit (Parsing JSON) ;;;
  match json_Decode r with
  | Err err => ret (Err (Wrap err "unable to decode JSON"))
  | Ok raw => ret (Ok raw)
  end.

Definition ParseJSON5 (r : string) : M (result Value) :=
  emit (Parsing JSON5) ;;;
  match json5_Decode r with
  | Err err => ret (Err (Wrap err "unable to decode JSON5"))
  | Ok raw => ret (Ok raw)
  end.

(** ** The switch on the input format *)

(** The message of a syntax error:
    [Sprintf("unable to parse %q as %q: %s\nSyntax error at line %d, column %d (offset %d):\n%s", ...)]. *)
Definition syntax_message (m : ParseMode) (parseErr : error)
    (line col Offset : Z) (highlight : string) : string :=
  "unable to parse " ++ quote (InFilename m) ++ " as " ++ quote (InputFormat m)
  ++ ": " ++ Error parseErr ++ nl
  ++ "Syntax error at line " ++ fmt.d line ++ ", column " ++ fmt.d col
  ++ " (offset " ++ fmt.d Offset ++ "):" ++ nl ++ highlight.

(** [Sprintf("unable to parse config file as %q", m.InputFormat)]. *)
Definition plain_message (m : ParseMode) : string :=
  "unable to parse config file as " ++ quote (InputFormat m).

(** The type switch on [errors.Cause(err)] after a failure of [ParseJSON]. *)
Definition wrap_json (m : ParseMode) (f : string) (err : error) : error :=
  match Cause err with
  | JsonSyntaxError _ Offset as parseErr =>
      let '(line, col, highlight) := highlightPosition f Offset in
      Wrap err (syntax_message m parseErr line col Offset highlight)
  | _ => Wrap err (plain_message m)
  end.

(** The same after a failure of [ParseJSON5]. *)
Definition wrap_json5 (m : ParseMode) (f : string) (err : error) : error :=
  match Cause err with
  | Json5SyntaxError _ Offset as parseErr =>
      let '(line, col, highlight) := highlightPosition f Offset in
      Wrap err (syntax_message m parseErr line col Offset highlight)
  | _ => Wrap err (plain_message m)
  end.

(** After a failure of [ParseHCL] the type switch has a default case only. *)
Definition wrap_hcl (m : ParseMode) (err : error) : error :=
  Wrap err (plain_message m).

(** How the switch is left: by [break] with the parsed value, or by a
    [return] of an error. *)
Inductive flow : Type :=
| Break (raw : Value)
| Return (err : error).

(** The switch leaves [errList] as its second component. *)
Definition switched : Type := flow * list error.

Definition case_default (m : ParseMode) (errList : list error) : M switched :=
  if (0 <? Z.of_nat (List.length errList)) then
    ret (Return (Errorf ("Unsupported input type: " ++ quote (InputFormat m)
                         ++ ": " ++ v_errors errList)), errList)
  else
    ret (Return (Errorf ("Unsupported input type: " ++ quote (InputFormat m))),
         errList).

Definition case_hcl (m : ParseMode) (buf : string)
    (tryAllFormats : bool) (errList : list error) : M switched :=
  r <- ParseHCL buf ;;
  match r with
  | Ok raw => ret (Break raw, errList)
  | Err err =>
      let errWrapped := wrap_hcl m err in
      if negb tryAllFormats then ret (Return errWrapped, errList)
      else case_default m (errList ++ [errWrapped])%list
  end.

Definition case_json5 (m : ParseMode) (f buf : string)
    (tryAllFormats : bool) (errList : list error) : M switched :=
  r <- ParseJSON5 buf ;;
  match r with
  | Ok raw => ret (Break raw, errList)
  | Err err =>
      let errWrapped := wrap_json5 m f err in
      if negb tryAllFormats then ret (Return errWrapped, errList)
      else case_hcl m buf tryAllFormats (errList ++ [errWrapped])%list
  end.

Definition case_json (m : ParseMode) (f buf : string)
    (tryAllFormats : bool) (errList : list error) : M switched :=
  r <- ParseJSON buf ;;
  match r with
  | Ok raw => ret (Break raw, errList)
  | Err err =>
      let errWrapped := wrap_json m f err in
      if negb tryAllFormats then ret (Return errWrapped, errList)
      else case_json5 m f buf tryAllFormats (errList ++ [errWrapped])%list
  end.

(** [switch m.InputFormat]: the case of the star sets [tryAllFormats] and
    falls through; [f] is the content of the input file and [buf] the
    bytes read from it. *)
Definition switch_InputFormat (m : ParseMode) (f buf : string) : M switched :=
  let tryAllFormats := false in
  let errList := [] in
  if (InputFormat m =? "*")%string then
    let tryAllFormats := true in
    case_json m f buf tryAllFormats errList
  else if (InputFormat m =? "json")%string then
    case_json m f buf tryAllFormats errList
  else if (InputFormat m =? "json5")%string then
    case_json5 m f buf tryAllFormats errList
  else if (InputFormat m =? "hcl")%string then
    case_hcl m buf tryAllFormats errList
  else
    case_default m errList.

(** ** run *)

(** The first part of [run]: the content of the file [f] that is parsed,
    or the error returned. Standard input is copied to a temporary file
    first. *)
Definition open_input (w : World) (m : ParseMode) : result string :=
  if (InFilename m =? "-")%string then
    match TempFile w with
    | Some err => Err (Wrap err "unable to create temp file for stdin")
    | None =>
        match Flush w with
        | Some err => Err (Wrap err "unable to flush temp file")
        | None => Ok (Stdin w)
        end
    end
  else
    match Open w (InFilename m) with
    | Err err => Err (Wrap err "unable to read input")
    | Ok f => Ok f
    end.

(** The last part of [run]: the writer and the encoder. *)
Definition write_output (w : World) (m : ParseMode) (raw : Value)
  : M (option error) :=
  opened <-
    (if (OutFilename m =? "-")%string then ret None
     else
       emit (Creating (OutFilename m)) ;;;
       match Create w (OutFilename m) with
       | Some err => ret (Some (Wrap err "unable to open output file"))
       | None => ret None
       end) ;;
  match opened with
  | Some err => ret (Some err)
  | None =>
      if (OutputFormat m =? "json")%string then
        let enc := NewEncoder in
        let enc :=
          if PrettyPrint m && (OutFilename m =? "-")%string
          then SetIndent "" "    " enc else enc in
        emit (Encoding enc (OutFilename m) raw) ;;;
        match Encode enc raw with
        | Some err => ret (Some (Wrap err "unable to encode"))
        | None => ret None
        end
      else
        ret (Some (Errorf ("Unsupported output type: "
                           ++ quote (OutputFormat m))))
  end.

(** [run] returns its error, or [None] for nil. *)
Definition run (w : World) (m : ParseMode) : M (option error) :=
  match open_input w m with
  | Err err => ret (Some err)
  | Ok f =>
      match Copy w with
      | Some err => ret (Some (Wrap err "unable to read input"))
      | None =>
          let buf := f in
          sw <- switch_InputFormat m f buf ;;
          match fst sw with
          | Return err => ret (Some err)
          | Break raw => write_output w m raw
          end
      end
  end.

End Convert.

(** ** Vocabulary of the properties *)

Section Vocabulary.

Context {ext : Externals}.

(** The name that selects a grammar in [m.InputFormat]. *)
Definition name (g : Grammar) : string :=
  match g with
  | JSON => "json"
  | JSON5 => "json5"
  | HCL => "hcl"
  end.

(** The decoder of the library behind the parser of a grammar. *)
Definition decoder (g : Grammar) : string -> result Value :=
  match g with
  | JSON => json_Decode
  | JSON5 => json5_Decode
  | HCL => hcl_Decode
  end.

(** The error that [run] makes of the failure [e] of the decoder of [g]:
    the wrapper of the parser, then the wrapper of the case of [g]. *)
Definition attempt_error (g : Grammar) (m : ParseMode) (f : string)
    (e : error) : error :=
  match g with
  | JSON => wrap_json m f (Wrap e "unable to decode JSON")
  | JSON5 => wrap_json5 m f (Wrap e "unable to decode JSON5")
  | HCL => wrap_hcl m (Wrap e "unable to decode HCL")
  end.

(** The message and byte offset of [e] when its cause is the syntax error
    of the decoder of [g]. *)
Definition syntax_error_of (g : Grammar) (e : error) : option (string * Z) :=
  match g, Cause e with
  | JSON, JsonSyntaxError msg Offset => Some (msg, Offset)
  | JSON5, Json5SyntaxError msg Offset => Some (msg, Offset)
  | _, _ => None
  end.

(** The parsers called in a log, in the order of the calls. *)
Definition parsers (log : list event) : list Grammar :=
  flat_map (fun e => match e with Parsing g => [g] | _ => [] end) log.

(** The encoders used in a log. *)
Definition encoders (log : list event) : list Encoder :=
  flat_map (fun e => match e with Encoding enc _ _ => [enc] | _ => [] end) log.

(** [m] with another requested input format. *)
Definition with_InputFormat (format : string) (m : ParseMode) : ParseMode :=
  {| Globals := Globals m; BufferSize := BufferSize m;
     PrettyPrint := PrettyPrint m; InputFormat := format;
     OutputFormat := OutputFormat m |}.

(** The message of the wrapper of the parser of [g]. *)
Definition decode_message (g : Grammar) : string :=
  match g with
  | JSON => "unable to decode JSON"
  | JSON5 => "unable to decode JSON5"
  | HCL => "unable to decode HCL"
  end.

(** [err] is an error that the switch leaves behind: an entry of [errList]
    or the error it returns. *)
Definition reports (sw : switched) (err : error) : Prop :=
  In err (snd sw) \/ fst sw = Return err.

(** The grammars that the star tries before [g]. *)
Definition earlier (g : Grammar) : list Grammar :=
  match g with
  | JSON => []
  | JSON5 => [JSON]
  | HCL => [JSON; JSON5]
  end.

(** The encoder that [run] sets up for [m]. *)
Definition encoder_of (m : ParseMode) : Encoder :=
  if PrettyPrint m && (OutFilename m =? "-")%string
  then SetIndent "" "    " NewEncoder else NewEncoder.

(** The three kinds of requested input format. *)
Inductive request : Type :=
| Detect
| Only (g : Grammar)
| Unknown.

Definition request_of (format : string) : request :=
  if (format =? "*")%string then Detect
  else if (format =? "json")%string then Only JSON
  else if (format =? "json5")%string then Only JSON5
  else if (format =? "hcl")%string then Only HCL
  else Unknown.

End Vocabulary.

(** ** The snippet as the specification words it

    The line before the error line when the error line is not the first,
    then the error line, both behind their line number, then a caret that
    stands [col] characters after the prefix of the line number. The lines
    are those of the whole input. *)
Definition specified_snippet (f : string) (line col : Z) : string :=
  let prefix n := fmt.d5 n ++ ": " in
  let text n := nth (Z.to_nat (n - 1)) (lines f) "" in
  (if line =? 1 then "" else prefix (line - 1) ++ text (line - 1) ++ nl)
  ++ prefix line ++ text line ++ nl
  ++ fmt.Repeat " " (Z.of_nat (String.length (prefix line)) + col) ++ "^" ++ nl.

(** ** Sample documents and libraries *)

Module Sample.

(** The values of the samples: objects whose members are whole numbers. *)
Definition JValue : Type := list (string * Z).

Definition dq : string := String "034"%char "".

(** Four documents: strict JSON, JSON5 with a trailing comma, HCL, and a
    lone closing brace that no grammar accepts. *)
Definition doc_strict : string := "{" ++ dq ++ "a" ++ dq ++ ":1}".
Definition doc_relaxed : string := "{" ++ dq ++ "a" ++ dq ++ ":1,}".
Definition doc_block : string := "a = 1".
Definition doc_broken : string := "}".

Definition a_is_1 : JValue := [("a", 1)].

(** Stand-ins for the decoders that answer on these four documents as
    the libraries do; any other document is answered like the last. *)
Definition decode_json (s : string) : result JValue :=
  if (s =? doc_strict)%string then Ok a_is_1
  else if (s =? doc_relaxed)%string then
    Err (JsonSyntaxError
           "invalid character '}' looking for beginning of object key string" 8)
  else if (s =? doc_block)%string then
    Err (JsonSyntaxError "invalid character 'a' looking for beginning of value" 1)
  else
    Err (JsonSyntaxError "invalid character '}' looking for beginning of value" 1).

Definition decode_json5 (s : string) : result JValue :=
  if (s =? doc_strict)%string then Ok a_is_1
  else if (s =? doc_relaxed)%string then Ok a_is_1
  else if (s =? doc_block)%string then
    Err (Json5SyntaxError "invalid character 'a' looking for beginning of value" 1)
  else
    Err (Json5SyntaxError "invalid character '}' looking for beginning of value" 1).

Definition decode_hcl (s : string) : result JValue :=
  if (s =? doc_strict)%string then Ok a_is_1
  else if (s =? doc_block)%string then Ok a_is_1
  else Err (ForeignError "At 1:1: illegal char").

(** [%q] on a string of printable ASCII without quotes or backslashes. *)
Definition quote_plain (s : string) : string := dq ++ s ++ dq.

#[local] Instance libs : Externals := {|
  Value := JValue;
  json_Decode := decode_json;
  json5_Decode := decode_json5;
  hcl_Decode := decode_hcl;
  quote := quote_plain;
  Encode := fun _ _ => None
|}.

(** Standard input holds [doc]; no call of the system fails. *)
Definition world (doc : string) : World := {|
  Stdin := doc;
  TempFile := None;
  Flush := None;
  Open := fun _ => Err (ForeignError "no such file or directory");
  Copy := None;
  Create := fun _ => None
|}.

(** The command line [cfgt -I format -o out], with or without [-p]. *)
Definition mode (format out : string) (pretty : bool) : ParseMode := {|
  Globals := {| Debug := false; InFilename := "-"; OutFilename := out;
                OutFormat := "" |};
  BufferSize := DefaultBufferSize;
  PrettyPrint := pretty;
  InputFormat := format;
  OutputFormat := "json"
|}.

End Sample.

(** ** Properties of strings *)

Lemma append_nil_r (s : string) : s ++ "" = s.
Proof. induction s as [|c s IH]; simpl; [reflexivity | now rewrite IH]. Qed.

Lemma append_assoc (s t u : string) : (s ++ t) ++ u = s ++ (t ++ u).
Proof. induction s as [|c s IH]; simpl; [reflexivity | now rewrite IH]. Qed.

(** Appends are brought to the right and literals are unfolded. *)
Ltac assoc_append :=
  repeat (progress (cbn [append]) || rewrite append_assoc).

(** ** Properties of the loop of [highlightPosition] *)

Lemma scan_feed (br : string) : forall (n pos : Z) (s : scanner),
  scan br n pos s = feed (consumed br (pos - n)) s.
Proof.
  unfold consumed.
  induction br as [|b br IH]; intros n pos s; simpl.
  - destruct (n <? pos); destruct (Z.to_nat (pos - n)); reflexivity.
  - destruct (n <? pos) eqn:Hlt.
    + apply Z.ltb_lt in Hlt.
      replace (Z.to_nat (pos - n)) with (S (Z.to_nat (pos - (n + 1)))) by lia.
      simpl. apply IH.
    + apply Z.ltb_ge in Hlt.
      replace (Z.to_nat (pos - n)) with O by lia. reflexivity.
Qed.

Lemma lines_not_nil (p : string) : lines p <> [].
Proof.
  destruct p as [|b p]; simpl; [discriminate|].
  destruct (Ascii.eqb b LF); [discriminate|].
  destruct (lines p); discriminate.
Qed.

Lemma length_lines (p : string) : List.length (lines p) = S (count_LF p).
Proof.
  induction p as [|b p IH]; simpl; [reflexivity|].
  destruct (Ascii.eqb b LF); simpl; [now rewrite IH|].
  destruct (lines p) as [|l ls]; simpl in *; [discriminate | assumption].
Qed.

Lemma lines_single (p : string) : count_LF p = O -> lines p = [p].
Proof.
  induction p as [|b p IH]; simpl; [reflexivity|].
  destruct (Ascii.eqb b LF); simpl; [discriminate|].
  intros H. now rewrite (IH H).
Qed.

Lemma feed_line (p : string) : forall s,
  line (feed p s) = line s + Z.of_nat (count_LF p).
Proof.
  induction p as [|b p IH]; intros s; simpl; [lia|].
  rewrite IH. unfold scan_byte.
  destruct (Ascii.eqb b LF); simpl; lia.
Qed.

Lemma feed_thisLine (p : string) : forall s,
  thisLine (feed p s) =
  if Nat.eqb (count_LF p) 0 then thisLine s ++ p else last_line p.
Proof.
  unfold last_line.
  induction p as [|b p IH]; intros s; simpl.
  - now rewrite append_nil_r.
  - rewrite IH. unfold scan_byte.
    destruct (Ascii.eqb b LF); simpl.
    + destruct (Nat.eqb (count_LF p) 0) eqn:E.
      * apply Nat.eqb_eq in E. now rewrite (lines_single p E).
      * pose proof (lines_not_nil p). destruct (lines p); [easy | reflexivity].
    + destruct (Nat.eqb (count_LF p) 0) eqn:E.
      * now rewrite append_assoc.
      * apply Nat.eqb_neq in E. pose proof (length_lines p) as L.
        destruct (lines p) as [|l [|l' ls]]; simpl in *; [lia | lia | reflexivity].
Qed.

Lemma feed_lastLine (p : string) : forall s,
  lastLine (feed p s) =
  match count_LF p with
  | O => lastLine s
  | S O => thisLine s ++ previous_line p
  | _ => previous_line p
  end.
Proof.
  unfold previous_line.
  induction p as [|b p IH]; intros s; simpl; [reflexivity|].
  rewrite IH. pose proof (length_lines p) as L. unfold scan_byte.
  destruct (Ascii.eqb b LF); simpl.
  - destruct (count_LF p) as [|[|k]] eqn:E; simpl.
    + rewrite (lines_single p E). simpl. now rewrite append_nil_r.
    + destruct (lines p) as [|l [|l' [|l'' ls]]]; simpl in *; try lia.
      reflexivity.
    + destruct (lines p) as [|l [|l' ls]]; simpl in *; try lia.
      injection L as L. rewrite L. simpl. reflexivity.
  - destruct (lines p) as [|l ls] eqn:El; simpl in *; [lia|].
    injection L as L.
    destruct (count_LF p) as [|[|k]] eqn:E; simpl.
    + reflexivity.
    + destruct ls as [|l' [|l'' ls]]; simpl in *; try lia.
      now rewrite append_assoc.
    + destruct ls as [|l' ls]; simpl in *; [lia|].
      injection L as L. rewrite L. simpl.
      replace (k - 0)%nat with k by lia. reflexivity.
Qed.

Lemma feed_col (p : string) : forall s,
  col (feed p s) =
  if Nat.eqb (count_LF p) 0 then col s + Z.of_nat (String.length p)
  else 1 + Z.of_nat (String.length (last_line p)).
Proof.
  unfold last_line.
  induction p as [|b p IH]; intros s; simpl; [lia|].
  rewrite IH. pose proof (length_lines p) as L. unfold scan_byte.
  destruct (Ascii.eqb b LF); simpl.
  - destruct (Nat.eqb (count_LF p) 0) eqn:E.
    + apply Nat.eqb_eq in E. now rewrite (lines_single p E).
    + destruct (lines p); [easy | reflexivity].
  - destruct (Nat.eqb (count_LF p) 0) eqn:E; [lia|].
    apply Nat.eqb_neq in E.
    destruct (lines p) as [|l [|l' ls]]; simpl in *; [lia | lia | reflexivity].
Qed.

Lemma length_consumed (f : string) (pos : Z) :
  String.length (consumed f pos) = Nat.min (Z.to_nat pos) (String.length f).
Proof.
  unfold consumed. generalize (Z.to_nat pos) as n.
  induction f as [|b f IH]; intros [|n]; simpl; try reflexivity.
  now rewrite IH.
Qed.

Lemma count_LF_le (p : string) : (count_LF p <= String.length p)%nat.
Proof.
  induction p as [|b p IH]; simpl; [lia|].
  destruct (Ascii.eqb b LF); lia.
Qed.

(** The counters stay within the length of the file. *)
Lemma scan_bounds (f : string) (pos : Z) :
  let s := scan f 0 pos scanner0 in
  1 <= line s <= 1 + Z.of_nat (String.length f) /\
  0 <= col s <= 1 + Z.of_nat (String.length f).
Proof.
  cbv zeta. rewrite scan_feed, feed_line, feed_col.
  change (line scanner0) with 1; change (col scanner0) with 0.
  pose proof (count_LF_le (consumed f (pos - 0))) as Hc.
  pose proof (length_consumed f (pos - 0)) as Hl.
  split; [lia|].
  destruct (Nat.eqb (count_LF (consumed f (pos - 0))) 0) eqn:E; [lia|].
  apply Nat.eqb_neq in E.
  assert (String.length (last_line (consumed f (pos - 0)))
          <= String.length (consumed f (pos - 0)))%nat; [|lia].
  generalize (consumed f (pos - 0)) as p. clear.
  unfold last_line. induction p as [|b p IH]; simpl; [lia|].
  pose proof (lines_not_nil p) as N.
  destruct (Ascii.eqb b LF).
  - destruct (lines p); [easy|]. simpl in *. lia.
  - destruct (lines p) as [|l [|l' ls]]; [easy | simpl in *; lia | simpl in *; lia].
Qed.

(** ** Properties of the switch and of [run] *)

Section Facts.

Context {ext : Externals}.

Implicit Types (w : World) (m : ParseMode) (f buf : string) (g : Grammar)
  (log : list event) (e err : error) (raw : Value).

(** A requested grammar is tried alone. *)
Lemma switch_explicit m f buf log g :
  InputFormat m = name g ->
  switch_InputFormat m f buf log =
  match decoder g buf with
  | Ok raw => ((Break raw, []), (log ++ [Parsing g])%list)
  | Err e => ((Return (attempt_error g m f e), []), (log ++ [Parsing g])%list)
  end.
Proof.
  intros H. unfold switch_InputFormat. rewrite H.
  destruct g; simpl;
    unfold case_json, case_json5, case_hcl, ParseJSON, ParseJSON5, ParseHCL,
      bind, emit, ret; simpl.
  - destruct (json_Decode buf); reflexivity.
  - destruct (json5_Decode buf); reflexivity.
  - destruct (hcl_Decode buf); reflexivity.
Qed.

(** The star tries the grammars in turn until one parses. *)
Lemma switch_detect m f buf log :
  InputFormat m = "*" ->
  switch_InputFormat m f buf log =
  match json_Decode buf with
  | Ok raw => ((Break raw, []), (log ++ [Parsing JSON])%list)
  | Err e1 =>
    match json5_Decode buf with
    | Ok raw => ((Break raw, [attempt_error JSON m f e1]),
                 (log ++ [Parsing JSON; Parsing JSON5])%list)
    | Err e2 =>
      match hcl_Decode buf with
      | Ok raw =>
          ((Break raw, [attempt_error JSON m f e1; attempt_error JSON5 m f e2]),
           (log ++ [Parsing JSON; Parsing JSON5; Parsing HCL])%list)
      | Err e3 =>
          let errList := [attempt_error JSON m f e1; attempt_error JSON5 m f e2;
                          attempt_error HCL m f e3] in
          ((Return (Errorf ("Unsupported input type: " ++ quote "*" ++ ": "
                            ++ v_errors errList)), errList),
           (log ++ [Parsing JSON; Parsing JSON5; Parsing HCL])%list)
      end
    end
  end.
Proof.
  intros H. unfold switch_InputFormat. rewrite H. simpl.
  unfold case_json, case_json5, case_hcl, case_default,
    ParseJSON, ParseJSON5, ParseHCL, bind, emit, ret.
  destruct (json_Decode buf); [reflexivity|]. simpl.
  destruct (json5_Decode buf); simpl; rewrite <- ?app_assoc; [reflexivity|].
  destruct (hcl_Decode buf); simpl; rewrite <- ?app_assoc; simpl;
    [reflexivity|].
  rewrite H. reflexivity.
Qed.

(** Any other name reaches the default case at once. *)
Lemma switch_unsupported m f buf log :
  InputFormat m <> "*" -> InputFormat m <> "json" ->
  InputFormat m <> "json5" -> InputFormat m <> "hcl" ->
  switch_InputFormat m f buf log =
  ((Return (Errorf ("Unsupported input type: " ++ quote (InputFormat m))), []),
   log).
Proof.
  intros H1 H2 H3 H4. unfold switch_InputFormat.
  apply String.eqb_neq in H1, H2, H3, H4. rewrite H1, H2, H3, H4.
  reflexivity.
Qed.

(** [run] once the input is read. *)
Lemma run_read w m f log :
  open_input w m = Ok f -> Copy w = None ->
  run w m log =
  let '(sw, log') := switch_InputFormat m f f log in
  match fst sw with
  | Return err => (Some err, log')
  | Break raw => write_output w m raw log'
  end.
Proof.
  intros Hf Hc. unfold run. rewrite Hf, Hc. unfold bind.
  destruct (switch_InputFormat m f f log) as [[[raw|err] errList] log'];
    reflexivity.
Qed.

Lemma parsers_app log log' :
  parsers (log ++ log') = (parsers log ++ parsers log')%list.
Proof. apply flat_map_app. Qed.

(** Writing the output calls no parser. *)
Lemma parsers_write_output w m raw log :
  parsers (snd (write_output w m raw log)) = parsers log.
Proof.
  unfold write_output, bind, emit, ret.
  destruct (OutFilename m =? "-")%string; simpl.
  - destruct (OutputFormat m =? "json")%string; simpl; [|reflexivity].
    destruct (Encode _ raw); simpl; rewrite parsers_app; simpl;
      now rewrite app_nil_r.
  - destruct (Create w (OutFilename m)); simpl.
    + rewrite parsers_app; simpl; now rewrite app_nil_r.
    + destruct (OutputFormat m =? "json")%string; simpl.
      * destruct (Encode _ raw); simpl; rewrite !parsers_app; simpl;
          now rewrite !app_nil_r.
      * rewrite parsers_app; simpl; now rewrite app_nil_r.
Qed.

(** The output does not depend on the requested input format. *)
Lemma write_output_with_InputFormat w m format raw log :
  write_output w (with_InputFormat format m) raw log = write_output w m raw log.
Proof. reflexivity. Qed.

End Facts.

(** ** The diagnostic locator *)

(** The line is 1 plus the number of line feeds among the consumed bytes. *)
Lemma highlightPosition_line (f : string) (pos : Z) :
  fst (fst (highlightPosition f pos)) = 1 + Z.of_nat (count_LF (consumed f pos)).
Proof.
  unfold highlightPosition. simpl. rewrite scan_feed, feed_line, Z.sub_0_r.
  reflexivity.
Qed.

(** On the first line the column is the number of consumed bytes; after a
    line feed it is 1 plus the number of bytes consumed on the last line. *)
Lemma highlightPosition_col (f : string) (pos : Z) :
  snd (fst (highlightPosition f pos)) =
  if Nat.eqb (count_LF (consumed f pos)) 0
  then Z.of_nat (String.length (consumed f pos))
  else 1 + Z.of_nat (String.length (last_line (consumed f pos))).
Proof.
  unfold highlightPosition. simpl. rewrite scan_feed, feed_col, Z.sub_0_r.
  reflexivity.
Qed.

(** C2. At offset 0 the loop does not run: the line is 1 and the column is
    0, the zero value of the named result [col], whatever the file holds;
    the column is not 1. *)
Theorem highlightPosition_offset_0 (f : string) :
  highlightPosition f 0 = (1, 0, "    1: " ++ nl ++ "     ^" ++ nl).
Proof. destruct f; reflexivity. Qed.

(** C8. The snippet is the line before the error line, present exactly when
    the line number is above 1, then the bytes of the error line that come
    before the offset, each behind its line number right-aligned in five
    columns, a colon and a space; then [col + 5] spaces and the caret. *)
Theorem highlightPosition_snippet (f : string) (pos : Z) :
  let p := consumed f pos in
  let '(line, col, highlight) := highlightPosition f pos in
  highlight =
    (if 1 <? line then fmt.d5 (line - 1) ++ ": " ++ previous_line p ++ nl else "")
    ++ fmt.d5 line ++ ": " ++ last_line p ++ nl
    ++ fmt.Repeat " " (col + 5) ++ "^" ++ nl.
Proof.
  unfold highlightPosition, render. cbv zeta.
  rewrite scan_feed, Z.sub_0_r.
  set (p := consumed f pos).
  rewrite feed_line, feed_thisLine, feed_lastLine. simpl line. simpl thisLine.
  pose proof (length_lines p) as L.
  destruct (count_LF p) as [|[|k]] eqn:E; simpl Nat.eqb; cbv iota.
  - replace (1 <? 1 + Z.of_nat 0) with false by (symmetry; apply Z.ltb_ge; lia).
    unfold last_line. rewrite (lines_single p E).
    cbn [last]. now assoc_append.
  - replace (1 <? 1 + Z.of_nat 1) with true by (symmetry; apply Z.ltb_lt; lia).
    cbn [thisLine scanner0]. now assoc_append.
  - replace (1 <? 1 + Z.of_nat (S (S k))) with true
      by (symmetry; apply Z.ltb_lt; lia).
    now assoc_append.
Qed.

(** C8, as the specification words it, fails on a two-line file whose
    second line goes on after the offset. *)
Lemma specified_snippet_counterexample :
  ~ (forall (f : string) (pos : Z),
       let '(line, col, highlight) := highlightPosition f pos in
       highlight = specified_snippet f line col).
Proof.
  intros H. specialize (H ("ab" ++ nl ++ "cdef") 5).
  vm_compute in H. discriminate H.
Qed.

(** ** The format resolver *)

Section Resolver.

Context {ext : Externals}.

Implicit Types (w : World) (m : ParseMode) (f buf : string) (g : Grammar)
  (log : list event) (e err : error) (raw : Value).

Lemma Cause_attempt_error g m f e : Cause (attempt_error g m f e) = Cause e.
Proof.
  destruct g; unfold attempt_error, wrap_json, wrap_json5, wrap_hcl;
    cbn [Cause]; try reflexivity;
    destruct (Cause e) eqn:E; cbn [Cause]; exact E.
Qed.

Lemma attempt_error_wraps g m f e :
  exists msg, attempt_error g m f e = Wrap (Wrap e (decode_message g)) msg.
Proof.
  destruct g; unfold attempt_error, wrap_json, wrap_json5, wrap_hcl;
    cbn [Cause]; try (eexists; reflexivity);
    destruct (Cause e); eexists; reflexivity.
Qed.

(** The message of a failed attempt. *)
Lemma Error_attempt_error g m f e :
  Error (attempt_error g m f e) =
  match syntax_error_of g e with
  | Some (msg, Offset) =>
      let '(line, col, highlight) := highlightPosition f Offset in
      ("unable to parse " ++ quote (InFilename m) ++ " as "
       ++ quote (InputFormat m) ++ ": " ++ msg ++ nl
       ++ "Syntax error at line " ++ fmt.d line ++ ", column " ++ fmt.d col
       ++ " (offset " ++ fmt.d Offset ++ "):" ++ nl ++ highlight)
      ++ ": " ++ decode_message g ++ ": " ++ Error e
  | None =>
      ("unable to parse config file as " ++ quote (InputFormat m))
      ++ ": " ++ decode_message g ++ ": " ++ Error e
  end.
Proof.
  destruct g;
    unfold attempt_error, syntax_error_of, wrap_json, wrap_json5, wrap_hcl;
    cbn [Cause]; try reflexivity;
    destruct (Cause e); reflexivity.
Qed.

(** The switch calls parsers only. *)
Lemma encoders_switch m f buf :
  encoders (snd (switch_InputFormat m f buf [])) = [].
Proof.
  unfold switch_InputFormat, case_json, case_json5, case_hcl, case_default,
    ParseJSON, ParseJSON5, ParseHCL, bind, emit, ret.
  repeat match goal with
         | |- context [if ?b then _ else _] => destruct b; simpl
         | |- context [match ?d buf with _ => _ end] => destruct (d buf); simpl
         end; reflexivity.
Qed.

(** C1. When the three decoders fail on the input and the star is
    requested, the switch has called the parsers of JSON, JSON5 and HCL in
    this order, its [errList] holds the three failures in the same order,
    one for each grammar, and [run] returns an error that prints this list;
    nothing is encoded. *)
Theorem detect_all_fail w m f e1 e2 e3 :
  InputFormat m = "*" -> open_input w m = Ok f -> Copy w = None ->
  json_Decode f = Err e1 -> json5_Decode f = Err e2 -> hcl_Decode f = Err e3 ->
  let errList := [attempt_error JSON m f e1; attempt_error JSON5 m f e2;
                  attempt_error HCL m f e3] in
  let err := Errorf ("Unsupported input type: " ++ quote "*" ++ ": "
                     ++ v_errors errList) in
  switch_InputFormat m f f [] =
    ((Return err, errList), [Parsing JSON; Parsing JSON5; Parsing HCL]) /\
  run w m [] = (Some err, [Parsing JSON; Parsing JSON5; Parsing HCL]) /\
  map Cause errList = [Cause e1; Cause e2; Cause e3].
Proof.
  intros Hm Hf Hc H1 H2 H3 errList err.
  assert (Hs : switch_InputFormat m f f [] =
               ((Return err, errList),
                [Parsing JSON; Parsing JSON5; Parsing HCL])).
  { rewrite (switch_detect m f f [] Hm), H1, H2, H3. reflexivity. }
  split; [exact Hs|]. split.
  - rewrite (run_read w m f [] Hf Hc), Hs. reflexivity.
  - unfold errList. cbn [map]. now rewrite !Cause_attempt_error.
Qed.

(** C3. When the decoder of JSON accepts the input, the run under the star
    and the run under the name of JSON leave the switch with the same value
    and an empty [errList], go on to the same output, and call the parser
    of JSON only. *)
Theorem detect_strict_like_json w m f raw :
  open_input w m = Ok f -> Copy w = None -> json_Decode f = Ok raw ->
  let star := with_InputFormat "*" m in
  let json := with_InputFormat "json" m in
  switch_InputFormat star f f [] = ((Break raw, []), [Parsing JSON]) /\
  switch_InputFormat json f f [] = ((Break raw, []), [Parsing JSON]) /\
  run w star [] = write_output w m raw [Parsing JSON] /\
  run w json [] = run w star [] /\
  parsers (snd (run w star [])) = [JSON].
Proof.
  intros Hf Hc H1 star json.
  assert (Hs : switch_InputFormat star f f [] = ((Break raw, []), [Parsing JSON])).
  { rewrite (switch_detect star f f [] eq_refl), H1. reflexivity. }
  assert (Hj : switch_InputFormat json f f [] = ((Break raw, []), [Parsing JSON])).
  { rewrite (switch_explicit json f f [] JSON eq_refl). simpl. rewrite H1.
    reflexivity. }
  assert (Rs : run w star [] = write_output w m raw [Parsing JSON]).
  { rewrite (run_read w star f [] Hf Hc), Hs. reflexivity. }
  assert (Rj : run w json [] = write_output w m raw [Parsing JSON]).
  { rewrite (run_read w json f [] Hf Hc), Hj. reflexivity. }
  repeat split; try assumption.
  - now rewrite Rs, Rj.
  - rewrite Rs, parsers_write_output. reflexivity.
Qed.

(** C4. When the decoder of JSON rejects the input and the decoder of
    JSON5 accepts it, the switch under the star is left with the value of
    JSON5 and an [errList] of one entry, the failure of JSON; [run] goes on
    to write that value. *)
Theorem detect_relaxed w m f e1 raw :
  InputFormat m = "*" -> open_input w m = Ok f -> Copy w = None ->
  json_Decode f = Err e1 -> json5_Decode f = Ok raw ->
  switch_InputFormat m f f [] =
    ((Break raw, [attempt_error JSON m f e1]), [Parsing JSON; Parsing JSON5]) /\
  run w m [] = write_output w m raw [Parsing JSON; Parsing JSON5] /\
  Cause (attempt_error JSON m f e1) = Cause e1.
Proof.
  intros Hm Hf Hc H1 H2.
  assert (Hs : switch_InputFormat m f f [] =
               ((Break raw, [attempt_error JSON m f e1]),
                [Parsing JSON; Parsing JSON5])).
  { rewrite (switch_detect m f f [] Hm), H1, H2. reflexivity. }
  split; [exact Hs|]. split.
  - rewrite (run_read w m f [] Hf Hc), Hs. reflexivity.
  - apply Cause_attempt_error.
Qed.

(** C5. When the name of a grammar is requested, [run] calls the parser of
    that grammar and no other; when its decoder fails, the switch returns
    the error of that attempt at once, [errList] is empty, and [run]
    returns that error without encoding anything. *)
Theorem explicit_only_that_grammar w m f g :
  InputFormat m = name g -> open_input w m = Ok f -> Copy w = None ->
  parsers (snd (run w m [])) = [g] /\
  forall e, decoder g f = Err e ->
    switch_InputFormat m f f [] =
      ((Return (attempt_error g m f e), []), [Parsing g]) /\
    run w m [] = (Some (attempt_error g m f e), [Parsing g]).
Proof.
  intros Hm Hf Hc.
  pose proof (switch_explicit m f f [] g Hm) as Hs.
  pose proof (run_read w m f [] Hf Hc) as Hr.
  split.
  - rewrite Hr, Hs. destruct (decoder g f); simpl.
    + now rewrite parsers_write_output.
    + reflexivity.
  - intros e He. rewrite He in Hs. split; [exact Hs|].
    rewrite Hr, Hs. reflexivity.
Qed.

(** C6. When the requested format is neither the star nor the name of a
    grammar, the switch returns the error of the default case with an
    empty [errList] and [run] returns it; no parser has been called, and
    the error is not the error of any parse attempt. *)
Theorem unsupported_format w m f :
  InputFormat m <> "*" -> (forall g, InputFormat m <> name g) ->
  open_input w m = Ok f -> Copy w = None ->
  let err := Errorf ("Unsupported input type: " ++ quote (InputFormat m)) in
  switch_InputFormat m f f [] = ((Return err, []), []) /\
  run w m [] = (Some err, []) /\
  forall g m' f' e, err <> attempt_error g m' f' e.
Proof.
  intros Hs Hn Hf Hc err.
  assert (Hsw : switch_InputFormat m f f [] = ((Return err, []), [])).
  { apply switch_unsupported;
      [exact Hs | apply (Hn JSON) | apply (Hn JSON5) | apply (Hn HCL)]. }
  split; [exact Hsw|]. split.
  - rewrite (run_read w m f [] Hf Hc), Hsw. reflexivity.
  - intros g m' f' e H.
    destruct (attempt_error_wraps g m' f' e) as [msg Hw].
    rewrite Hw in H. discriminate H.
Qed.

(** C7. The message of a failed attempt of a grammar [g]: when the cause
    of the failure is the syntax error of the decoder of [g], it starts
    with the quoted name of the input and the quoted requested format,
    then has the message of the syntax error and the block with line,
    column, offset and snippet; otherwise it is the plain message with the
    quoted requested format. In both cases the message of the wrapped
    decoding error follows. When [g] is requested by its name, which is
    then the quoted format, this is the error that [run] returns; under
    the star, which is then the quoted format, every entry of [errList]
    is such an error of a grammar whose decoder failed. *)
Theorem attempt_message w m f :
  (forall g e,
     Error (attempt_error g m f e) =
     match syntax_error_of g e with
     | Some (msg, Offset) =>
         let '(line, col, highlight) := highlightPosition f Offset in
         ("unable to parse " ++ quote (InFilename m) ++ " as "
          ++ quote (InputFormat m) ++ ": " ++ msg ++ nl
          ++ "Syntax error at line " ++ fmt.d line ++ ", column " ++ fmt.d col
          ++ " (offset " ++ fmt.d Offset ++ "):" ++ nl ++ highlight)
         ++ ": " ++ decode_message g ++ ": " ++ Error e
     | None =>
         ("unable to parse config file as " ++ quote (InputFormat m))
         ++ ": " ++ decode_message g ++ ": " ++ Error e
     end) /\
  (forall g e,
     InputFormat m = name g -> open_input w m = Ok f -> Copy w = None ->
     decoder g f = Err e ->
     run w m [] = (Some (attempt_error g m f e), [Parsing g])) /\
  (InputFormat m = "*" ->
   Forall (fun err => exists g e,
             decoder g f = Err e /\ err = attempt_error g m f e)
     (snd (fst (switch_InputFormat m f f [])))).
Proof.
  split; [intros g e; apply Error_attempt_error|]. split.
  - intros g e Hm Hf Hc He.
    rewrite (run_read w m f [] Hf Hc), (switch_explicit m f f [] g Hm), He.
    reflexivity.
  - intros Hm. rewrite (switch_detect m f f [] Hm).
    destruct (json_Decode f) as [raw|e1] eqn:H1; [constructor|].
    assert (A1 : exists g e, decoder g f = Err e /\
                   attempt_error JSON m f e1 = attempt_error g m f e)
      by (exists JSON, e1; split; [exact H1 | reflexivity]).
    destruct (json5_Decode f) as [raw|e2] eqn:H2; [repeat constructor; exact A1|].
    assert (A2 : exists g e, decoder g f = Err e /\
                   attempt_error JSON5 m f e2 = attempt_error g m f e)
      by (exists JSON5, e2; split; [exact H2 | reflexivity]).
    destruct (hcl_Decode f) as [raw|e3] eqn:H3;
      [repeat constructor; assumption|].
    assert (A3 : exists g e, decoder g f = Err e /\
                   attempt_error HCL m f e3 = attempt_error g m f e)
      by (exists HCL, e3; split; [exact H3 | reflexivity]).
    repeat constructor; assumption.
Qed.

(** C9. When [run] succeeds it has encoded once, and the encoder indents
    exactly when the pretty-print flag is set and the output goes to
    standard output. *)
Theorem indent_when_pretty_and_stdout w m log :
  run w m [] = (None, log) ->
  exists enc, encoders log = [enc] /\
    (indented enc = true <-> PrettyPrint m = true /\ OutFilename m = "-").
Proof.
  unfold run. destruct (open_input w m) as [f|]; [|discriminate].
  destruct (Copy w); [discriminate|]. unfold bind.
  pose proof (encoders_switch m f f) as Hsw.
  destruct (switch_InputFormat m f f []) as [[[raw|err] errList] log'];
    simpl in *; [|discriminate].
  unfold write_output, bind, emit, ret.
  destruct (OutFilename m =? "-")%string eqn:Eo.
  - destruct (OutputFormat m =? "json")%string; [|discriminate].
    destruct (Encode _ raw); [discriminate|].
    intros H. injection H as <-.
    eexists. split.
    + unfold encoders in *. rewrite flat_map_app, Hsw. reflexivity.
    + apply String.eqb_eq in Eo. destruct (PrettyPrint m); simpl; intuition congruence.
  - destruct (Create w (OutFilename m)); [discriminate|].
    destruct (OutputFormat m =? "json")%string; [|discriminate].
    destruct (Encode _ raw); [discriminate|].
    intros H. injection H as <-.
    eexists. split.
    + unfold encoders in *. rewrite !flat_map_app, Hsw. reflexivity.
    + apply String.eqb_neq in Eo. rewrite andb_false_r.
      split; [intros H; vm_compute in H; discriminate H
             | intros [_ H]; contradiction].
Qed.

End Resolver.

(** ** The properties on the sample documents *)

(** C1 on the lone closing brace. *)
Lemma detect_all_fail_witness :
  let w := Sample.world Sample.doc_broken in
  let m := Sample.mode "*" "-" false in
  (InputFormat m = "*" /\ open_input w m = Ok Sample.doc_broken /\
   Copy w = None) /\
  fst (run (ext := Sample.libs) w m []) <> None /\
  snd (run (ext := Sample.libs) w m []) =
    [Parsing JSON; Parsing JSON5; Parsing HCL].
Proof.
  intros w m. split; [repeat split; reflexivity|].
  destruct (detect_all_fail (ext := Sample.libs) w m Sample.doc_broken
              (JsonSyntaxError
                 "invalid character '}' looking for beginning of value" 1)
              (Json5SyntaxError
                 "invalid character '}' looking for beginning of value" 1)
              (ForeignError "At 1:1: illegal char")
              eq_refl eq_refl eq_refl eq_refl eq_refl eq_refl)
    as [_ [H _]].
  rewrite H. split; [discriminate | reflexivity].
Defined.

(** C3 on the strict document. *)
Lemma detect_strict_like_json_witness :
  let w := Sample.world Sample.doc_strict in
  let m := Sample.mode "*" "-" false in
  (open_input w m = Ok Sample.doc_strict /\ Copy w = None /\
   json_Decode (Externals := Sample.libs) Sample.doc_strict = Ok Sample.a_is_1) /\
  run (ext := Sample.libs) w (with_InputFormat "json" m) [] =
    run (ext := Sample.libs) w (with_InputFormat "*" m) [] /\
  parsers (snd (run (ext := Sample.libs) w (with_InputFormat "*" m) [])) = [JSON].
Proof.
  intros w m. split; [repeat split; reflexivity|].
  destruct (detect_strict_like_json (ext := Sample.libs) w m Sample.doc_strict
              Sample.a_is_1 eq_refl eq_refl eq_refl)
    as [_ [_ [_ [H1 H2]]]].
  split; [exact H1 | exact H2].
Defined.

(** C4 on the document with a trailing comma. *)
Lemma detect_relaxed_witness :
  let w := Sample.world Sample.doc_relaxed in
  let m := Sample.mode "*" "-" false in
  let e1 := JsonSyntaxError
    "invalid character '}' looking for beginning of object key string" 8 in
  (InputFormat m = "*" /\ open_input w m = Ok Sample.doc_relaxed /\
   Copy w = None /\
   json_Decode (Externals := Sample.libs) Sample.doc_relaxed = Err e1 /\
   json5_Decode (Externals := Sample.libs) Sample.doc_relaxed = Ok Sample.a_is_1) /\
  fst (switch_InputFormat (ext := Sample.libs) m Sample.doc_relaxed
         Sample.doc_relaxed []) =
    (Break (ext := Sample.libs) Sample.a_is_1,
     [attempt_error (ext := Sample.libs) JSON m Sample.doc_relaxed e1]).
Proof.
  intros w m e1. split; [repeat split; reflexivity|].
  destruct (detect_relaxed (ext := Sample.libs) w m Sample.doc_relaxed e1
              Sample.a_is_1 eq_refl eq_refl eq_refl eq_refl eq_refl)
    as [H _].
  rewrite H. reflexivity.
Defined.

(** C5 on the document with a trailing comma, requested as JSON. *)
Lemma explicit_only_that_grammar_witness :
  let w := Sample.world Sample.doc_relaxed in
  let m := Sample.mode "json" "-" false in
  let e1 := JsonSyntaxError
    "invalid character '}' looking for beginning of object key string" 8 in
  (InputFormat m = name JSON /\ open_input w m = Ok Sample.doc_relaxed /\
   Copy w = None /\
   decoder (ext := Sample.libs) JSON Sample.doc_relaxed = Err e1) /\
  run (ext := Sample.libs) w m [] =
    (Some (attempt_error (ext := Sample.libs) JSON m Sample.doc_relaxed e1),
     [Parsing JSON]).
Proof.
  intros w m e1. split; [repeat split; reflexivity|].
  destruct (explicit_only_that_grammar (ext := Sample.libs) w m
              Sample.doc_relaxed JSON eq_refl eq_refl eq_refl)
    as [_ H].
  destruct (H e1 eq_refl) as [_ Hr]. exact Hr.
Defined.

(** C6 on a request for YAML. *)
Lemma unsupported_format_witness :
  let w := Sample.world Sample.doc_strict in
  let m := Sample.mode "yaml" "-" false in
  (InputFormat m <> "*" /\ (forall g, InputFormat m <> name g) /\
   open_input w m = Ok Sample.doc_strict /\ Copy w = None) /\
  run (ext := Sample.libs) w m [] =
    (Some (Errorf ("Unsupported input type: " ++ Sample.quote_plain "yaml")), []).
Proof.
  intros w m.
  assert (Hs : InputFormat m <> "*") by discriminate.
  assert (Hn : forall g, InputFormat m <> name g)
    by (intros g; destruct g; discriminate).
  split; [repeat split; try reflexivity; assumption|].
  destruct (unsupported_format (ext := Sample.libs) w m Sample.doc_strict
              Hs Hn eq_refl eq_refl)
    as [_ [H _]].
  exact H.
Defined.

(** C7 on the document with a trailing comma, requested as JSON. *)
Lemma attempt_message_witness :
  let w := Sample.world Sample.doc_relaxed in
  let m := Sample.mode "json" "-" false in
  let e1 := JsonSyntaxError
    "invalid character '}' looking for beginning of object key string" 8 in
  (InputFormat m = name JSON /\ open_input w m = Ok Sample.doc_relaxed /\
   Copy w = None /\
   decoder (ext := Sample.libs) JSON Sample.doc_relaxed = Err e1) /\
  run (ext := Sample.libs) w m [] =
    (Some (attempt_error (ext := Sample.libs) JSON m Sample.doc_relaxed e1),
     [Parsing JSON]) /\
  prefix ("unable to parse " ++ Sample.quote_plain "-" ++ " as "
          ++ Sample.quote_plain "json"
          ++ ": invalid character '}' looking for beginning of object key string"
          ++ nl ++ "Syntax error at line 1, column 8 (offset 8):" ++ nl)
    (Error (attempt_error (ext := Sample.libs) JSON m Sample.doc_relaxed e1))
  = true.
Proof.
  intros w m e1. split; [repeat split; reflexivity|].
  destruct (attempt_message (ext := Sample.libs) w m Sample.doc_relaxed)
    as [Hmsg [Hrun _]].
  split; [exact (Hrun JSON e1 eq_refl eq_refl eq_refl eq_refl)|].
  rewrite Hmsg. reflexivity.
Defined.

(** C7, with the name of the attempted grammar in the message, fails under
    the star: the failure of JSON on the lone closing brace is reported
    with the star in the place of the name. *)
Lemma attempt_message_counterexample :
  ~ (forall (ext : Externals) (m : ParseMode) (f : string) (g : Grammar)
            (e : error) (msg : string) (Offset : Z),
       syntax_error_of g e = Some (msg, Offset) ->
       reports (fst (switch_InputFormat m f f [])) (attempt_error g m f e) ->
       prefix ("unable to parse " ++ quote (InFilename m) ++ " as "
               ++ quote (name g) ++ ": ")
         (Error (attempt_error g m f e)) = true).
Proof.
  intros H.
  specialize (H Sample.libs (Sample.mode "*" "-" false) Sample.doc_broken JSON
                (JsonSyntaxError
                   "invalid character '}' looking for beginning of value" 1)
                _ _ eq_refl).
  assert (R : reports
                (fst (switch_InputFormat (ext := Sample.libs)
                        (Sample.mode "*" "-" false) Sample.doc_broken
                        Sample.doc_broken []))
                (attempt_error (ext := Sample.libs) JSON
                   (Sample.mode "*" "-" false) Sample.doc_broken
                   (JsonSyntaxError
                      "invalid character '}' looking for beginning of value" 1))).
  { left. left. reflexivity. }
  specialize (H R). vm_compute in H. discriminate H.
Qed.

(** C9 on the strict document, with the flag, to standard output. *)
Lemma indent_when_pretty_and_stdout_witness :
  let w := Sample.world Sample.doc_strict in
  let m := Sample.mode "*" "-" true in
  fst (run (ext := Sample.libs) w m []) = None /\
  exists enc,
    encoders (snd (run (ext := Sample.libs) w m [])) = [enc] /\
    indented enc = true.
Proof.
  intros w m. split; [reflexivity|].
  destruct (indent_when_pretty_and_stdout (ext := Sample.libs) w m
              (snd (run (ext := Sample.libs) w m [])) eq_refl)
    as [enc [H1 H2]].
  exists enc. split; [exact H1 | apply H2; split; reflexivity].
Defined.

(** C9, with the flag alone deciding the indentation, fails when the output
    goes to a file: the flag is set and the encoder does not indent. *)
Lemma indent_counterexample :
  ~ (forall (ext : Externals) (w : World) (m : ParseMode) (log : list event),
       run w m [] = (None, log) ->
       forall enc, In enc (encoders log) ->
         (indented enc = true <-> PrettyPrint m = true)).
Proof.
  intros H.
  specialize (H Sample.libs (Sample.world Sample.doc_strict)
                (Sample.mode "json" "out.json" true) _ eq_refl
                NewEncoder).
  destruct H as [_ H].
  - vm_compute. left. reflexivity.
  - specialize (H eq_refl). vm_compute in H. discriminate H.
Qed.

(** ** Further properties of the diagnostic locator *)

Lemma feed_app (a b : string) : forall s, feed (a ++ b) s = feed b (feed a s).
Proof. induction a as [|c a IH]; intros s; simpl; [reflexivity | apply IH]. Qed.

Lemma count_LF_app (a b : string) :
  count_LF (a ++ b) = (count_LF a + count_LF b)%nat.
Proof. induction a as [|c a IH]; simpl; [reflexivity | rewrite IH; lia]. Qed.

Lemma length_app_string (a b : string) :
  String.length (a ++ b) = (String.length a + String.length b)%nat.
Proof. induction a as [|c a IH]; simpl; [reflexivity | now rewrite IH]. Qed.

Lemma substring_app (p rest : string) :
  substring 0 (String.length p) (p ++ rest) = p.
Proof.
  induction p as [|c p IH]; simpl; [destruct rest; reflexivity | now rewrite IH].
Qed.

Lemma consumed_app (p rest : string) :
  consumed (p ++ rest) (Z.of_nat (String.length p)) = p.
Proof. unfold consumed. rewrite Nat2Z.id. apply substring_app. Qed.

Lemma consumed_all (f : string) (pos : Z) :
  Z.of_nat (String.length f) <= pos -> consumed f pos = f.
Proof.
  unfold consumed. intros H.
  assert (Hn : (String.length f <= Z.to_nat pos)%nat) by lia.
  revert Hn. generalize (Z.to_nat pos) as n. clear.
  induction f as [|c f IH]; intros [|n] Hn; simpl in *; try reflexivity;
    [lia | rewrite IH; [reflexivity | lia]].
Qed.

Lemma consumed_nonpos (f : string) (pos : Z) : pos <= 0 -> consumed f pos = "".
Proof.
  unfold consumed. intros H. replace (Z.to_nat pos) with O by lia.
  destruct f; reflexivity.
Qed.

Lemma consumed_split (f : string) (pos : Z) :
  exists rest, f = consumed f pos ++ rest.
Proof.
  unfold consumed. generalize (Z.to_nat pos) as n.
  induction f as [|c f IH]; intros [|n]; simpl.
  - now exists "".
  - now exists "".
  - now exists (String c f).
  - destruct (IH n) as [rest Hr]. exists rest. now rewrite <- Hr.
Qed.

Lemma highlightPosition_feed (f : string) (pos : Z) :
  highlightPosition f pos =
  (line (feed (consumed f pos) scanner0), col (feed (consumed f pos) scanner0),
   render (feed (consumed f pos) scanner0)).
Proof. unfold highlightPosition. cbv zeta. now rewrite scan_feed, Z.sub_0_r. Qed.

Lemma lines_no_LF (p : string) : Forall (fun l => count_LF l = O) (lines p).
Proof.
  induction p as [|b p IH]; simpl; [repeat constructor|].
  destruct (Ascii.eqb b LF) eqn:E.
  - constructor; [reflexivity | exact IH].
  - destruct (lines p) as [|l ls]; [repeat constructor; simpl; now rewrite E|].
    inversion IH as [|? ? Hl Hls]; subst.
    constructor; [simpl; now rewrite E | exact Hls].
Qed.

Lemma last_line_no_LF (p : string) : count_LF (last_line p) = O.
Proof.
  unfold last_line. pose proof (lines_no_LF p) as H.
  induction H as [|l ls Hl Hls IH]; [reflexivity|].
  destruct ls; [exact Hl | exact IH].
Qed.

Lemma previous_line_no_LF (p : string) : count_LF (previous_line p) = O.
Proof.
  unfold previous_line.
  assert (H : Forall (fun l => count_LF l = O) (removelast (lines p))).
  { pose proof (lines_no_LF p) as H.
    induction H as [|l ls Hl Hls IH]; [constructor|].
    simpl. destruct ls; [constructor | constructor; assumption]. }
  generalize (List.length (lines p) - 2)%nat as n.
  induction H as [|l ls Hl Hls IH]; intros [|n]; simpl; auto.
Qed.

Lemma Repeat_nat_no_LF (n : nat) : count_LF (fmt.Repeat_nat " " n) = O.
Proof. induction n as [|n IH]; simpl; [reflexivity | exact IH]. Qed.

Lemma d_no_LF (n : Z) : count_LF (fmt.d n) = O.
Proof.
  unfold fmt.d.
  assert (U : forall u, count_LF (NilEmpty.string_of_uint u) = O)
    by (induction u; simpl; auto).
  assert (V : forall u, count_LF (NilZero.string_of_uint u) = O)
    by (intros u; destruct u; simpl; auto; apply (U u)).
  destruct (Z.to_int n) as [u|u]; simpl; apply V.
Qed.

Lemma d5_no_LF (n : Z) : count_LF (fmt.d5 n) = O.
Proof.
  unfold fmt.d5. cbv zeta. now rewrite count_LF_app, Repeat_nat_no_LF, d_no_LF.
Qed.

Lemma thisLine_no_LF (p : string) : count_LF (thisLine (feed p scanner0)) = O.
Proof.
  rewrite feed_thisLine. destruct (Nat.eqb (count_LF p) 0) eqn:E.
  - apply Nat.eqb_eq in E. exact E.
  - apply last_line_no_LF.
Qed.

Lemma lastLine_no_LF (p : string) : count_LF (lastLine (feed p scanner0)) = O.
Proof.
  rewrite feed_lastLine. destruct (count_LF p) as [|[|k]];
    [reflexivity | apply previous_line_no_LF | apply previous_line_no_LF].
Qed.

(** X1. The line that [highlightPosition] returns is 1 plus the number of
    line feeds among the bytes it consumes, which are the first [pos]
    bytes of the file, or all of them when the file is shorter. *)
Theorem locator_line_counts_line_feeds (f : string) (pos : Z) :
  exists p rest,
    f = p ++ rest /\
    String.length p = Nat.min (Z.to_nat pos) (String.length f) /\
    fst (fst (highlightPosition f pos)) = 1 + Z.of_nat (count_LF p).
Proof.
  destruct (consumed_split f pos) as [rest Hr].
  exists (consumed f pos), rest.
  split; [exact Hr|]. split; [apply length_consumed|].
  rewrite highlightPosition_feed. simpl. now rewrite feed_line.
Qed.

(** X2. When the offset ends a run [cur] of bytes without line feed at the
    start of the file, the result is line 1, a column equal to the length
    of [cur], and a snippet of two rows: [cur] behind the number 1, and a
    caret behind the length of [cur] plus 5 spaces; what follows [cur] in
    the file is not shown. *)
Theorem locator_on_first_line (cur rest : string) :
  count_LF cur = O ->
  highlightPosition (cur ++ rest) (Z.of_nat (String.length cur)) =
  (1, Z.of_nat (String.length cur),
   fmt.d5 1 ++ ": " ++ cur ++ nl
   ++ fmt.Repeat " " (Z.of_nat (String.length cur) + 5) ++ "^" ++ nl).
Proof.
  intros Hc. rewrite highlightPosition_feed, consumed_app.
  unfold render. rewrite feed_line, feed_col, feed_thisLine, Hc.
  change (line scanner0 + Z.of_nat 0) with 1.
  change (col scanner0 + Z.of_nat (String.length cur))
    with (Z.of_nat (String.length cur)).
  change (1 <? 1) with false.
  cbn [Nat.eqb thisLine scanner0].
  f_equal. now assoc_append.
Qed.

(** X3. When the offset ends a run [cur] of bytes without line feed that
    follows a line feed, the line is 2 plus the number of line feeds in
    the text [before] that line feed, the column is 1 plus the length of
    [cur], and the snippet has three rows: the last line of [before],
    then [cur], each behind its number, then a caret behind the length of
    [cur] plus 6 spaces. *)
Theorem locator_on_later_line (before cur rest : string) :
  count_LF cur = O ->
  let n := Z.of_nat (count_LF before) in
  highlightPosition (before ++ nl ++ cur ++ rest)
    (Z.of_nat (String.length (before ++ nl ++ cur))) =
  (2 + n, 1 + Z.of_nat (String.length cur),
   fmt.d5 (1 + n) ++ ": " ++ last_line before ++ nl
   ++ fmt.d5 (2 + n) ++ ": " ++ cur ++ nl
   ++ fmt.Repeat " " (Z.of_nat (String.length cur) + 6) ++ "^" ++ nl).
Proof.
  intros Hc n.
  replace (before ++ nl ++ cur ++ rest) with ((before ++ nl ++ cur) ++ rest)
    by (now rewrite !append_assoc).
  rewrite highlightPosition_feed, consumed_app, !feed_app.
  set (s1 := feed before scanner0).
  assert (Hnl : feed nl s1 =
                {| line := line s1 + 1; col := 1;
                   lastLine := thisLine s1; thisLine := "" |}) by reflexivity.
  rewrite Hnl. unfold render.
  rewrite feed_line, feed_col, feed_thisLine, feed_lastLine, Hc.
  cbn [Nat.eqb line col lastLine thisLine].
  assert (Hl : line s1 = 1 + n) by (unfold s1; now rewrite feed_line).
  assert (Ht : thisLine s1 = last_line before).
  { unfold s1. rewrite feed_thisLine.
    destruct (Nat.eqb (count_LF before) 0) eqn:E; [|reflexivity].
    apply Nat.eqb_eq in E. unfold last_line. now rewrite (lines_single _ E). }
  rewrite Hl, Ht.
  replace (1 <? 1 + n + 1 + Z.of_nat 0) with true
    by (symmetry; apply Z.ltb_lt; lia).
  replace (1 + n + 1 + Z.of_nat 0) with (2 + n) by lia.
  replace (2 + n - 1) with (1 + n) by lia.
  replace (1 + Z.of_nat (String.length cur) + 5)
    with (Z.of_nat (String.length cur) + 6) by lia.
  f_equal. now assoc_append.
Qed.

(** X4. An offset at or beyond the end of the file gives what the offset
    of the end of the file gives: the loop stops when the reader is
    empty. *)
Theorem locator_beyond_end (f : string) (pos : Z) :
  Z.of_nat (String.length f) <= pos ->
  highlightPosition f pos = highlightPosition f (Z.of_nat (String.length f)).
Proof.
  intros H. rewrite !highlightPosition_feed.
  rewrite (consumed_all f pos H), (consumed_all f _ (Z.le_refl _)).
  reflexivity.
Qed.

(** X5. A negative offset is taken as offset 0: the loop does not run. *)
Theorem locator_nonpositive (f : string) (pos : Z) :
  pos <= 0 -> highlightPosition f pos = highlightPosition f 0.
Proof.
  intros H. rewrite !highlightPosition_feed.
  rewrite (consumed_nonpos f pos H), (consumed_nonpos f 0 (Z.le_refl 0)).
  reflexivity.
Qed.

(** X6. The result depends on the bytes before the offset only: two files
    that agree on them get the same line, column and snippet. *)
Theorem locator_ignores_rest (f g : string) (pos : Z) :
  consumed f pos = consumed g pos ->
  highlightPosition f pos = highlightPosition g pos.
Proof. intros H. rewrite !highlightPosition_feed, H. reflexivity. Qed.

(** X7. The line lies between 1 and 1 plus the number of consumed bytes,
    the column between 0 and the number of consumed bytes; so the count
    given to [strings.Repeat] is at least 5 and the counters cannot
    overflow. *)
Theorem locator_bounds (f : string) (pos : Z) :
  let n := Z.of_nat (Nat.min (Z.to_nat pos) (String.length f)) in
  let '(line, col, _) := highlightPosition f pos in
  1 <= line <= 1 + n /\ 0 <= col <= n /\ 5 <= col + 5.
Proof.
  rewrite highlightPosition_feed, feed_line, feed_col.
  rewrite <- (length_consumed f pos).
  set (p := consumed f pos).
  change (line scanner0) with 1; change (col scanner0) with 0.
  pose proof (count_LF_le p) as Hc.
  assert (Hl : count_LF p <> O ->
               (1 + String.length (last_line p) <= String.length p)%nat).
  { clear. unfold last_line. induction p as [|b p IH]; simpl; [easy|].
    pose proof (lines_not_nil p) as N.
    destruct (Ascii.eqb b LF) eqn:E; simpl; intros H.
    - destruct (count_LF p) eqn:Ec.
      + rewrite (lines_single p Ec). simpl. lia.
      + destruct (lines p) as [|l ls]; [easy|].
        assert (S n <> O) as H' by lia. specialize (IH H').
        simpl in IH |- *. lia.
    - specialize (IH H). destruct (lines p) as [|l [|l' ls]]; [easy | |].
      + pose proof (length_lines p) as L. destruct (lines p) as [|? [|? ?]];
          simpl in *; lia.
      + simpl in IH |- *. lia. }
  destruct (Nat.eqb (count_LF p) 0) eqn:E.
  - apply Nat.eqb_eq in E. lia.
  - apply Nat.eqb_neq in E. specialize (Hl E). lia.
Qed.

(** X8. The snippet has two rows when the line is 1 and three rows
    otherwise: the texts it shows hold no line feed, and each row ends
    with one. *)
Theorem snippet_row_count (f : string) (pos : Z) :
  let '(line, _, highlight) := highlightPosition f pos in
  count_LF highlight = if line =? 1 then 2%nat else 3%nat.
Proof.
  rewrite highlightPosition_feed. unfold render, fmt.Repeat.
  rewrite !count_LF_app, !d5_no_LF, thisLine_no_LF, Repeat_nat_no_LF.
  rewrite feed_line. change (line scanner0) with 1.
  destruct (1 <? 1 + Z.of_nat (count_LF (consumed f pos))) eqn:E.
  - apply Z.ltb_lt in E.
    replace (1 + Z.of_nat (count_LF (consumed f pos)) =? 1) with false
      by (symmetry; apply Z.eqb_neq; lia).
    rewrite !count_LF_app, d5_no_LF, lastLine_no_LF. reflexivity.
  - apply Z.ltb_ge in E.
    replace (1 + Z.of_nat (count_LF (consumed f pos)) =? 1) with true
      by (symmetry; apply Z.eqb_eq; lia).
    reflexivity.
Qed.

(** X9. A later offset never gives an earlier line. *)
Theorem locator_line_monotone (f : string) (pos pos' : Z) :
  pos <= pos' ->
  fst (fst (highlightPosition f pos)) <= fst (fst (highlightPosition f pos')).
Proof.
  intros H. rewrite !highlightPosition_feed. simpl. rewrite !feed_line.
  assert (M : (count_LF (consumed f pos) <= count_LF (consumed f pos'))%nat);
    [|lia].
  unfold consumed.
  assert (Hn : (Z.to_nat pos <= Z.to_nat pos')%nat) by lia.
  revert Hn. generalize (Z.to_nat pos) as a, (Z.to_nat pos') as b. clear.
  induction f as [|c f IH]; intros [|a] [|b] Hab; simpl; try lia.
  specialize (IH a b). lia.
Qed.

(** X6 on two files that differ after their third byte. *)
Lemma locator_ignores_rest_witness :
  consumed "abcdef" 3 = consumed "abcxyz" 3 /\
  highlightPosition "abcdef" 3 = highlightPosition "abcxyz" 3.
Proof.
  split; [reflexivity|].
  apply (locator_ignores_rest "abcdef" "abcxyz" 3). reflexivity.
Defined.

(** X2 on a file of one line. *)
Lemma locator_on_first_line_witness :
  count_LF "abc" = O /\
  highlightPosition "abcdef" 3 =
    (1, 3, "    1: abc" ++ nl ++ "        ^" ++ nl).
Proof.
  split; [reflexivity|].
  exact (locator_on_first_line "abc" "def" eq_refl).
Defined.

(** X3 on a file of two lines. *)
Lemma locator_on_later_line_witness :
  count_LF "cd" = O /\
  highlightPosition ("ab" ++ nl ++ "cdef") 5 =
    (2, 3, "    1: ab" ++ nl ++ "    2: cd" ++ nl ++ "        ^" ++ nl).
Proof.
  split; [reflexivity|].
  exact (locator_on_later_line "ab" "cd" "ef" eq_refl).
Defined.

(** X4 on an offset past the end of a file of three bytes. *)
Lemma locator_beyond_end_witness :
  Z.of_nat (String.length "abc") <= 10 /\
  highlightPosition "abc" 10 = highlightPosition "abc" 3.
Proof.
  assert (H : Z.of_nat (String.length "abc") <= 10) by (simpl; lia).
  split; [exact H|].
  exact (locator_beyond_end "abc" 10 H).
Defined.

(** X5 on the offset -1. *)
Lemma locator_nonpositive_witness :
  -1 <= 0 /\ highlightPosition "abc" (-1) = highlightPosition "abc" 0.
Proof.
  assert (H : -1 <= 0) by lia.
  split; [exact H|].
  exact (locator_nonpositive "abc" (-1) H).
Defined.

(** X9 on two offsets of a file of two lines. *)
Lemma locator_line_monotone_witness :
  1 <= 4 /\
  fst (fst (highlightPosition ("ab" ++ nl ++ "cd") 1))
  <= fst (fst (highlightPosition ("ab" ++ nl ++ "cd") 4)).
Proof.
  assert (H : 1 <= 4) by lia.
  split; [exact H|].
  exact (locator_line_monotone ("ab" ++ nl ++ "cd") 1 4 H).
Defined.

(** ** Further properties of [run] *)

Section Runs.

Context {ext : Externals}.

Implicit Types (w : World) (m : ParseMode) (f buf : string) (g : Grammar)
  (log : list event) (e err : error) (raw : Value).

(** The requested format is the star, the name of a grammar, or neither. *)
Lemma request_of_spec (format : string) :
  match request_of format with
  | Detect => format = "*"
  | Only g => format = name g
  | Unknown => format <> "*" /\ forall g, format <> name g
  end.
Proof.
  unfold request_of.
  destruct (String.eqb_spec format "*") as [|Hs]; [assumption|].
  destruct (String.eqb_spec format "json") as [|H1]; [assumption|].
  destruct (String.eqb_spec format "json5") as [|H2]; [assumption|].
  destruct (String.eqb_spec format "hcl") as [|H3]; [assumption|].
  split; [exact Hs|]. intros g; destruct g; assumption.
Qed.

(** [run], step by step. *)
Lemma run_steps w m :
  run w m [] =
  match open_input w m with
  | Err err => (Some err, [])
  | Ok f =>
      match Copy w with
      | Some err => (Some (Wrap err "unable to read input"), [])
      | None =>
          match switch_InputFormat m f f [] with
          | ((Return err, _), log) => (Some err, log)
          | ((Break raw, _), log) => write_output w m raw log
          end
      end
  end.
Proof.
  unfold run. destruct (open_input w m) as [f|]; [|reflexivity].
  destruct (Copy w); [reflexivity|]. unfold bind.
  destruct (switch_InputFormat m f f []) as [[[raw|err] errList] log];
    reflexivity.
Qed.

(** The output step: what it returns and what it adds to the log. *)
Lemma write_output_steps w m raw log :
  write_output w m raw log =
  if (OutFilename m =? "-")%string then
    if (OutputFormat m =? "json")%string then
      (match Encode (encoder_of m) raw with
       | Some err => Some (Wrap err "unable to encode")
       | None => None
       end, (log ++ [Encoding (encoder_of m) (OutFilename m) raw])%list)
    else (Some (Errorf ("Unsupported output type: " ++ quote (OutputFormat m))),
          log)
  else
    match Create w (OutFilename m) with
    | Some err => (Some (Wrap err "unable to open output file"),
                   (log ++ [Creating (OutFilename m)])%list)
    | None =>
        if (OutputFormat m =? "json")%string then
          (match Encode (encoder_of m) raw with
           | Some err => Some (Wrap err "unable to encode")
           | None => None
           end,
           (log ++ [Creating (OutFilename m);
                    Encoding (encoder_of m) (OutFilename m) raw])%list)
        else (Some (Errorf ("Unsupported output type: "
                            ++ quote (OutputFormat m))),
              (log ++ [Creating (OutFilename m)])%list)
    end.
Proof.
  unfold write_output, encoder_of, bind, emit, ret.
  destruct (OutFilename m =? "-")%string; simpl.
  - destruct (OutputFormat m =? "json")%string; [|reflexivity].
    rewrite andb_true_r. destruct (Encode _ raw); reflexivity.
  - destruct (Create w (OutFilename m)); [reflexivity|].
    destruct (OutputFormat m =? "json")%string; [|reflexivity].
    rewrite andb_false_r. rewrite <- app_assoc.
    destruct (Encode _ raw); reflexivity.
Qed.

(** The switch, in each of the three kinds of request. *)
Lemma switch_steps m f :
  switch_InputFormat m f f [] =
  match request_of (InputFormat m) with
  | Detect =>
      match json_Decode f with
      | Ok raw => ((Break raw, []), [Parsing JSON])
      | Err e1 =>
        match json5_Decode f with
        | Ok raw => ((Break raw, [attempt_error JSON m f e1]),
                     [Parsing JSON; Parsing JSON5])
        | Err e2 =>
          match hcl_Decode f with
          | Ok raw =>
              ((Break raw,
                [attempt_error JSON m f e1; attempt_error JSON5 m f e2]),
               [Parsing JSON; Parsing JSON5; Parsing HCL])
          | Err e3 =>
              let errList := [attempt_error JSON m f e1;
                              attempt_error JSON5 m f e2;
                              attempt_error HCL m f e3] in
              ((Return (Errorf ("Unsupported input type: " ++ quote "*" ++ ": "
                                ++ v_errors errList)), errList),
               [Parsing JSON; Parsing JSON5; Parsing HCL])
          end
        end
      end
  | Only g =>
      match decoder g f with
      | Ok raw => ((Break raw, []), [Parsing g])
      | Err e => ((Return (attempt_error g m f e), []), [Parsing g])
      end
  | Unknown =>
      ((Return (Errorf ("Unsupported input type: " ++ quote (InputFormat m))),
        []), [])
  end.
Proof.
  pose proof (request_of_spec (InputFormat m)) as H.
  destruct (request_of (InputFormat m)) as [|g|].
  - apply (switch_detect m f f [] H).
  - apply (switch_explicit m f f [] g H).
  - destruct H as [H1 H2]. apply switch_unsupported;
      [exact H1 | apply (H2 JSON) | apply (H2 JSON5) | apply (H2 HCL)].
Qed.

(** The switch logs calls of parsers only. *)
Lemma switch_log_parsing m f :
  Forall (fun ev => exists g, ev = Parsing g)
    (snd (switch_InputFormat m f f [])).
Proof.
  rewrite switch_steps.
  destruct (request_of (InputFormat m)) as [|g|].
  - destruct (json_Decode f); [|destruct (json5_Decode f);
      [|destruct (hcl_Decode f)]]; simpl; repeat constructor; eexists;
      reflexivity.
  - destruct (decoder g f); simpl; repeat constructor; eexists; reflexivity.
  - constructor.
Qed.

Lemma fst_write_output w m raw log :
  fst (write_output w m raw log) = fst (write_output w m raw []).
Proof.
  rewrite !write_output_steps.
  destruct (OutFilename m =? "-")%string.
  - destruct (OutputFormat m =? "json")%string; reflexivity.
  - destruct (Create w (OutFilename m)); [reflexivity|].
    destruct (OutputFormat m =? "json")%string; reflexivity.
Qed.


(** X10. Under the star, when the decoders of JSON and JSON5 fail and the
    decoder of HCL accepts the input, the switch is left with the value of
    HCL after the three parsers were called in order, [errList] holds the
    failures of JSON and JSON5 in this order, and [run] goes on to write
    the value. *)
Theorem detect_block w m f e1 e2 raw :
  InputFormat m = "*" -> open_input w m = Ok f -> Copy w = None ->
  json_Decode f = Err e1 -> json5_Decode f = Err e2 -> hcl_Decode f = Ok raw ->
  switch_InputFormat m f f [] =
    ((Break raw, [attempt_error JSON m f e1; attempt_error JSON5 m f e2]),
     [Parsing JSON; Parsing JSON5; Parsing HCL]) /\
  run w m [] = write_output w m raw [Parsing JSON; Parsing JSON5; Parsing HCL].
Proof.
  intros Hm Hf Hc H1 H2 H3.
  assert (Hs : switch_InputFormat m f f [] =
    ((Break raw, [attempt_error JSON m f e1; attempt_error JSON5 m f e2]),
     [Parsing JSON; Parsing JSON5; Parsing HCL])).
  { rewrite (switch_detect m f f [] Hm), H1, H2, H3. reflexivity. }
  split; [exact Hs|].
  rewrite (run_read w m f [] Hf Hc), Hs. reflexivity.
Qed.

(** X11. Under the star, when the decoders of the grammars tried before
    [g] fail and the decoder of [g] accepts the input, [run] returns what
    it returns when [g] is requested by name: the earlier failures are
    dropped. The parsers called are those of the earlier grammars, then
    the parser of [g]. *)
Theorem detect_like_first_success w m f g raw :
  open_input w m = Ok f -> Copy w = None ->
  (forall g', In g' (earlier g) -> exists e, decoder g' f = Err e) ->
  decoder g f = Ok raw ->
  fst (run w (with_InputFormat "*" m) []) =
    fst (run w (with_InputFormat (name g) m) []) /\
  parsers (snd (run w (with_InputFormat "*" m) [])) = (earlier g ++ [g])%list.
Proof.
  intros Hf Hc He Hg.
  rewrite (run_read w (with_InputFormat "*" m) f [] Hf Hc).
  rewrite (run_read w (with_InputFormat (name g) m) f [] Hf Hc).
  rewrite (switch_detect (with_InputFormat "*" m) f f [] eq_refl).
  rewrite (switch_explicit (with_InputFormat (name g) m) f f [] g eq_refl), Hg.
  destruct g; simpl in Hg, He |- *.
  - rewrite Hg. simpl. rewrite parsers_write_output. split; reflexivity.
  - destruct (He JSON (or_introl eq_refl)) as [e1 H1]. simpl in H1.
    rewrite H1, Hg. simpl. rewrite parsers_write_output.
    split; [|reflexivity].
    now rewrite fst_write_output, (fst_write_output _ _ _ [Parsing JSON5]).
  - destruct (He JSON (or_introl eq_refl)) as [e1 H1].
    destruct (He JSON5 (or_intror (or_introl eq_refl))) as [e2 H2].
    simpl in H1, H2. rewrite H1, H2, Hg. simpl. rewrite parsers_write_output.
    split; [|reflexivity].
    now rewrite fst_write_output, (fst_write_output _ _ _ [Parsing HCL]).
Qed.

(** X12. [run] ends without a call of a parser exactly when the input
    cannot be read or the requested format is neither the star nor the
    name of a grammar. *)
Theorem no_parser_called_iff w m :
  parsers (snd (run w m [])) = [] <->
  (exists e, open_input w m = Err e) \/ (exists e, Copy w = Some e) \/
  (InputFormat m <> "*" /\ forall g, InputFormat m <> name g).
Proof.
  rewrite run_steps.
  destruct (open_input w m) as [f|e0]; [|split; [intros _; left; eauto|reflexivity]].
  destruct (Copy w) as [e0|];
    [split; [intros _; right; left; eauto|reflexivity]|].
  rewrite switch_steps.
  pose proof (request_of_spec (InputFormat m)) as R.
  assert (Hno : forall A : Prop,
            ((exists e, @Ok string f = Err e) \/
             (exists e, @None error = Some e) \/ A) -> A).
  { intros A [[e He]|[[e He]|Ha]]; [discriminate | discriminate | exact Ha]. }
  destruct (request_of (InputFormat m)) as [|g|].
  - split.
    + intros H. exfalso. revert H.
      destruct (json_Decode f); [|destruct (json5_Decode f);
        [|destruct (hcl_Decode f)]]; simpl;
        rewrite ?parsers_write_output; discriminate.
    + intros H. apply Hno in H. destruct H as [H _]. contradiction.
  - split.
    + intros H. exfalso. revert H.
      destruct (decoder g f); simpl; rewrite ?parsers_write_output;
        discriminate.
    + intros H. apply Hno in H. destruct H as [_ H]. now destruct (H g).
  - split; [intros _; right; right; exact R | reflexivity].
Qed.

(** X13. [run] calls each parser at most once, and in the order JSON,
    JSON5, HCL: the parsers called are none, one of them, JSON then JSON5,
    or the three. *)
Theorem parsers_called_in_order w m :
  In (parsers (snd (run w m [])))
     [[]; [JSON]; [JSON5]; [HCL]; [JSON; JSON5]; [JSON; JSON5; HCL]].
Proof.
  rewrite run_steps.
  destruct (open_input w m) as [f|e0]; [|simpl; auto].
  destruct (Copy w) as [e0|]; [simpl; auto|].
  rewrite switch_steps.
  destruct (request_of (InputFormat m)) as [|g|].
  - destruct (json_Decode f); [|destruct (json5_Decode f);
      [|destruct (hcl_Decode f)]]; rewrite ?parsers_write_output; simpl; auto 7.
  - destruct (decoder g f); rewrite ?parsers_write_output; destruct g; simpl;
      auto 7.
  - simpl; auto.
Qed.

(** The goals that remain once the event is identified. *)
Ltac conclude_from f errList log Hs :=
  repeat (split; [reflexivity|]);
  exists f, errList, log; split; [reflexivity|]; split;
    [reflexivity | exact Hs].

(** X14. Whatever [run] encodes is the value with which the switch was
    left, encoded once for the destination [m.OutFilename] with the
    encoder set up from the flags; nothing is encoded when the input
    cannot be read or no grammar parses it. *)
Theorem encoded_value_is_parsed w m enc dest raw :
  In (Encoding enc dest raw) (snd (run w m [])) ->
  dest = OutFilename m /\ enc = encoder_of m /\
  encoders (snd (run w m [])) = [enc] /\
  exists f errList log,
    open_input w m = Ok f /\ Copy w = None /\
    switch_InputFormat m f f [] = ((Break raw, errList), log).
Proof.
  rewrite run_steps.
  destruct (open_input w m) as [f|e0]; [|intros []].
  destruct (Copy w) as [e0|]; [intros []|].
  pose proof (switch_log_parsing m f) as P. rewrite Forall_forall in P.
  pose proof (encoders_switch m f f) as E.
  destruct (switch_InputFormat m f f []) as [[[raw'|err] errList] log] eqn:Hs;
    simpl in P, E.
  - assert (Q : forall tl,
              In (Encoding enc dest raw) (log ++ tl)%list ->
              In (Encoding enc dest raw) tl).
    { intros tl H. apply in_app_or in H. destruct H as [H|H]; [|exact H].
      destruct (P _ H) as [g Hg]. discriminate Hg. }
    assert (R : forall tl, encoders (log ++ tl)%list = encoders tl).
    { intros tl. unfold encoders in *. now rewrite flat_map_app, E. }
    rewrite write_output_steps.
    destruct (OutFilename m =? "-")%string;
      [|destruct (Create w (OutFilename m))];
      try destruct (OutputFormat m =? "json")%string;
      cbn [snd]; rewrite ?R; intros H;
      try (apply Q in H); try (rewrite <- (app_nil_r log) in H; apply Q in H);
      simpl in H; repeat (destruct H as [H|H]; try discriminate H);
      try contradiction;
      injection H as <- <- <-;
      conclude_from f errList log Hs.
  - cbn [snd]. intros H. destruct (P _ H) as [g Hg]. discriminate Hg.
Qed.






(** X18. Failures are collected only under the star: [errList] is empty
    when another format is requested, and under the star it has one entry
    for each parser called, less the one that parsed the input. *)
Theorem errList_counts_failed_attempts m f :
  let '((exit, errList), log) := switch_InputFormat m f f [] in
  if (InputFormat m =? "*")%string then
    (List.length errList
     + match exit with Break _ => 1 | Return _ => 0 end)%nat
    = List.length (parsers log)
  else errList = [].
Proof.
  rewrite switch_steps.
  pose proof (request_of_spec (InputFormat m)) as R.
  destruct (request_of (InputFormat m)) as [|g|].
  - rewrite R. simpl.
    destruct (json_Decode f); [|destruct (json5_Decode f);
      [|destruct (hcl_Decode f)]]; reflexivity.
  - rewrite R. destruct (decoder g f); destruct g; reflexivity.
  - destruct R as [R _]. apply String.eqb_neq in R. rewrite R. reflexivity.
Qed.

(** X19. When a grammar is requested by name and its decoder fails, the
    error that [run] returns wraps the error of the decoder twice, first
    with the message of the parser, and [errors.Cause] still finds the
    cause of the decoder's error in it. *)
Theorem explicit_failure_keeps_cause w m f g e :
  InputFormat m = name g -> open_input w m = Ok f -> Copy w = None ->
  decoder g f = Err e ->
  exists err msg,
    fst (run w m []) = Some err /\
    err = Wrap (Wrap e (decode_message g)) msg /\
    Cause err = Cause e.
Proof.
  intros Hm Hf Hc He.
  destruct (attempt_error_wraps g m f e) as [msg Hw].
  exists (attempt_error g m f e), msg.
  split; [|split; [exact Hw | apply Cause_attempt_error]].
  rewrite (run_read w m f [] Hf Hc), (switch_explicit m f f [] g Hm), He.
  reflexivity.
Qed.


End Runs.

(** ** The further properties on the sample documents *)

(** X10 on the HCL document. *)
Lemma detect_block_witness :
  let w := Sample.world Sample.doc_block in
  let m := Sample.mode "*" "-" false in
  (InputFormat m = "*" /\ open_input w m = Ok Sample.doc_block /\
   Copy w = None) /\
  run (ext := Sample.libs) w m [] =
    write_output (ext := Sample.libs) w m Sample.a_is_1
      [Parsing JSON; Parsing JSON5; Parsing HCL].
Proof.
  intros w m. split; [repeat split; reflexivity|].
  exact (proj2 (detect_block (ext := Sample.libs) w m Sample.doc_block
                  (JsonSyntaxError
                     "invalid character 'a' looking for beginning of value" 1)
                  (Json5SyntaxError
                     "invalid character 'a' looking for beginning of value" 1)
                  Sample.a_is_1
                  eq_refl eq_refl eq_refl eq_refl eq_refl eq_refl)).
Defined.

(** X11 on the document with a trailing comma, which JSON5 parses. *)
Lemma detect_like_first_success_witness :
  let w := Sample.world Sample.doc_relaxed in
  let m := Sample.mode "*" "-" false in
  (open_input w m = Ok Sample.doc_relaxed /\ Copy w = None /\
   decoder (ext := Sample.libs) JSON5 Sample.doc_relaxed = Ok Sample.a_is_1) /\
  fst (run (ext := Sample.libs) w (with_InputFormat "*" m) []) =
    fst (run (ext := Sample.libs) w (with_InputFormat "json5" m) []) /\
  parsers (snd (run (ext := Sample.libs) w (with_InputFormat "*" m) []))
    = [JSON; JSON5].
Proof.
  intros w m. split; [repeat split; reflexivity|].
  assert (He : forall g', In g' (earlier JSON5) ->
                 exists e, decoder (ext := Sample.libs) g' Sample.doc_relaxed
                           = Err e).
  { intros g' [<-|[]]. eexists. reflexivity. }
  exact (detect_like_first_success (ext := Sample.libs) w m Sample.doc_relaxed
           JSON5 Sample.a_is_1 eq_refl eq_refl He eq_refl).
Defined.

(** X14 on the strict document written to a file. *)
Lemma encoded_value_is_parsed_witness :
  let w := Sample.world Sample.doc_strict in
  let m := Sample.mode "json" "out.json" true in
  In (Encoding (ext := Sample.libs) NewEncoder "out.json" Sample.a_is_1)
     (snd (run (ext := Sample.libs) w m [])) /\
  encoders (snd (run (ext := Sample.libs) w m [])) = [NewEncoder].
Proof.
  intros w m.
  assert (H : In (Encoding (ext := Sample.libs) NewEncoder "out.json"
                   Sample.a_is_1)
                (snd (run (ext := Sample.libs) w m [])))
    by (right; right; left; reflexivity).
  split; [exact H|].
  exact (proj1 (proj2 (proj2
           (encoded_value_is_parsed (ext := Sample.libs) w m _ _ _ H)))).
Defined.



(** X19 on the document with a trailing comma, requested as JSON. *)
Lemma explicit_failure_keeps_cause_witness :
  let w := Sample.world Sample.doc_relaxed in
  let m := Sample.mode "json" "-" false in
  let e1 := JsonSyntaxError
    "invalid character '}' looking for beginning of object key string" 8 in
  (InputFormat m = name JSON /\ open_input w m = Ok Sample.doc_relaxed /\
   Copy w = None /\
   decoder (ext := Sample.libs) JSON Sample.doc_relaxed = Err e1) /\
  exists err msg,
    fst (run (ext := Sample.libs) w m []) = Some err /\
    err = Wrap (Wrap e1 (decode_message JSON)) msg /\
    Cause err = Cause e1.
Proof.
  intros w m e1. split; [repeat split; reflexivity|].
  exact (explicit_failure_keeps_cause (ext := Sample.libs) w m
           Sample.doc_relaxed JSON e1 eq_refl eq_refl eq_refl eq_refl).
Defined.

